(** * The MySQL operator's controller: event handlers and the calls they issue

    A shallow embedding of [pkg/apis/mysql/v1alpha1/types.go] and
    [pkg/controller/controller.go].  The three informer handlers
    ([add], [update], [delete]) are written in a small state monad over a
    [World] that holds the API server behind both clientsets, the sequence
    of requests sent to it (with the error each one returned) and the
    lines written through klog. *)

From Stdlib Require Import ZArith String List.
From stdpp Require Import base option strings gmap list.

Local Open Scope Z_scope.

(** ** Data model *)

(** Go's [error] interface; only its being [nil] or not is ever inspected. *)
Definition error := string.

(** [k8s.io/apimachinery/pkg/apis/meta/v1]: the fields of [ObjectMeta] and
    [LabelSelector] the controller writes or reads.  A field left out of a
    composite literal holds its zero value (the empty string, the nil map). *)
Module ObjectMeta.
Record t := mk {
  Name : string;
  Namespace : string;
  Labels : gmap string string
}.
End ObjectMeta.

Module LabelSelector.
Record t := mk { MatchLabels : gmap string string }.
End LabelSelector.

(** [pkg/apis/mysql/v1alpha1/types.go] *)
Module MySQLSpec.
Record t := mk { Version : string }.
End MySQLSpec.

Module MySQLStatus.
Record t := mk { Message : string }.
End MySQLStatus.

Module MySQL.
Record t := mk {
  ObjectMeta : ObjectMeta.t;
  Spec : MySQLSpec.t;
  Status : MySQLStatus.t
}.
Definition Name (m : t) : string := ObjectMeta.Name (ObjectMeta m).
Definition Namespace (m : t) : string := ObjectMeta.Namespace (ObjectMeta m).
(** The generated [DeepCopy]: a fresh object with the same contents, so
    that later writes to the copy leave the informer's object alone. *)
Definition DeepCopy (m : t) : t := m.
(** The assignment [ret.Status.Message = msg]. *)
Definition set_Status_Message (msg : string) (m : t) : t :=
  mk (ObjectMeta m) (Spec m) (MySQLStatus.mk msg).
End MySQL.

(** [k8s.io/apimachinery/pkg/api/resource]: a [Quantity] is an amount (the
    unexported [i], or [d] when it is set, with the cached string [s]) and
    an embedded [Format], the notation the amount is printed in
    ("DecimalSI", "BinarySI" or "DecimalExponent"). *)
Module int64Amount.
Record t := mk { value : Z; scale : Z }.
End int64Amount.

Module Quantity.
Record t := mk {
  i : int64Amount.t;
  d : option (Z * Z);
  s : string;
  Format : string
}.
(** [func (q *Quantity) IsZero() bool] *)
Definition IsZero (q : t) : bool :=
  match d q with
  | Some (unscaled, _) => unscaled =? 0
  | None => int64Amount.value (i q) =? 0
  end.
End Quantity.

(** [k8s.io/api/core/v1] *)
Definition SecretTypeOpaque : string := "Opaque".
Definition ResourceStorage : string := "storage".
Definition ReadWriteOnce : string := "ReadWriteOnce".

Module Secret.
Record t := mk {
  ObjectMeta : ObjectMeta.t;
  Type_ : string;
  StringData : gmap string string
}.
End Secret.

Module ServicePort.
Record t := mk { Port : Z }.
End ServicePort.

Module ServiceSpec.
Record t := mk {
  Ports : list ServicePort.t;
  ClusterIP : string;
  Selector : gmap string string
}.
End ServiceSpec.

Module Service.
Record t := mk { ObjectMeta : ObjectMeta.t; Spec : ServiceSpec.t }.
End Service.

Module ContainerPort.
Record t := mk { ContainerPort : Z }.
End ContainerPort.

Module VolumeMount.
Record t := mk { Name : string; MountPath : string }.
End VolumeMount.

Module LocalObjectReference.
Record t := mk { Name : string }.
End LocalObjectReference.

Module SecretKeySelector.
Record t := mk {
  LocalObjectReference : LocalObjectReference.t;
  Key : string
}.
End SecretKeySelector.

Module EnvVarSource.
Record t := mk { SecretKeyRef : option SecretKeySelector.t }.
End EnvVarSource.

Module EnvVar.
Record t := mk {
  Name : string;
  Value : string;
  ValueFrom : option EnvVarSource.t
}.
End EnvVar.

Module Container.
Record t := mk {
  Name : string;
  Image : string;
  Ports : list ContainerPort.t;
  VolumeMounts : list VolumeMount.t;
  Env : list EnvVar.t
}.
End Container.

Module PodSpec.
Record t := mk {
  TerminationGracePeriodSeconds : option Z;
  Containers : list Container.t
}.
End PodSpec.

Module PodTemplateSpec.
Record t := mk { ObjectMeta : ObjectMeta.t; Spec : PodSpec.t }.
End PodTemplateSpec.

Module ResourceRequirements.
Record t := mk {
  Limits : gmap string Quantity.t;
  Requests : gmap string Quantity.t
}.
End ResourceRequirements.

Module PersistentVolumeClaimSpec.
Record t := mk {
  AccessModes : list string;
  Resources : ResourceRequirements.t
}.
End PersistentVolumeClaimSpec.

Module PersistentVolumeClaim.
Record t := mk {
  ObjectMeta : ObjectMeta.t;
  Spec : PersistentVolumeClaimSpec.t
}.
End PersistentVolumeClaim.

(** [k8s.io/api/apps/v1] *)
Module StatefulSetSpec.
Record t := mk {
  Replicas : option Z;
  Selector : option LabelSelector.t;
  Template : PodTemplateSpec.t;
  VolumeClaimTemplates : list PersistentVolumeClaim.t;
  ServiceName : string
}.
End StatefulSetSpec.

Module StatefulSet.
Record t := mk { ObjectMeta : ObjectMeta.t; Spec : StatefulSetSpec.t }.
End StatefulSet.

(** ** Package-level variables of the controller *)

Definition matchLabelKey : string := "app".
Definition matchLabelVal : string := "mysql".
Definition serviceName : string := "mysql".
Definition replicas : Z := 1.
Definition terminationGracePeriodSeconds : Z := 10.
Definition containerName : string := "mysql".
Definition imagePrefix : string := "arm64v8/mysql:".
Definition volumeMountName : string := "mysql-store".
Definition volumeMoutPath : string := "/var/lib/mysql".
Definition envName : string := "MYSQL_ROOT_PASSWORD".
Definition secretName : string := "mysql-password".
Definition passwd : string := "bytedance".
Definition port : Z := 3306.

(** ** The objects built by [add]

    Each definition is the composite literal bound to the local variable of
    the same name in [Controller.add]; [ret] is the working copy of the
    custom resource. *)

Definition secret : Secret.t :=
  {| Secret.ObjectMeta :=
       {| ObjectMeta.Name := secretName;
          ObjectMeta.Namespace := "";
          ObjectMeta.Labels := ∅ |};
     Secret.Type_ := SecretTypeOpaque;
     Secret.StringData := {[ envName := passwd ]} |}.

Definition service : Service.t :=
  {| Service.ObjectMeta :=
       {| ObjectMeta.Name := serviceName;
          ObjectMeta.Namespace := "";
          ObjectMeta.Labels := {[ matchLabelKey := matchLabelVal ]} |};
     Service.Spec :=
       {| ServiceSpec.Ports := [ {| ServicePort.Port := port |} ];
          ServiceSpec.ClusterIP := "None";
          ServiceSpec.Selector := {[ matchLabelKey := matchLabelVal ]} |} |}.

Definition podTemplate (ret : MySQL.t) : PodTemplateSpec.t :=
  {| PodTemplateSpec.ObjectMeta :=
       {| ObjectMeta.Name := "";
          ObjectMeta.Namespace := "";
          ObjectMeta.Labels := {[ matchLabelKey := matchLabelVal ]} |};
     PodTemplateSpec.Spec :=
       {| PodSpec.TerminationGracePeriodSeconds :=
            Some terminationGracePeriodSeconds;
          PodSpec.Containers :=
            [ {| Container.Name := containerName;
                 Container.Image :=
                   imagePrefix +:+ MySQLSpec.Version (MySQL.Spec ret);
                 Container.Ports :=
                   [ {| ContainerPort.ContainerPort := port |} ];
                 Container.VolumeMounts :=
                   [ {| VolumeMount.Name := volumeMountName;
                        VolumeMount.MountPath := volumeMoutPath |} ];
                 Container.Env :=
                   [ {| EnvVar.Name := envName;
                        EnvVar.Value := "";
                        EnvVar.ValueFrom :=
                          Some {| EnvVarSource.SecretKeyRef :=
                            Some {| SecretKeySelector.LocalObjectReference :=
                                      {| LocalObjectReference.Name :=
                                           secretName |};
                                    SecretKeySelector.Key := envName |} |}
                     |} ] |} ] |} |}.

(** The literal [{Format: "1Gi"}] of type [resource.Quantity]: it names the
    one field [Format]; the amount fields keep their zero values. *)
Definition Quantity_with_Format (format : string) : Quantity.t :=
  {| Quantity.i := {| int64Amount.value := 0; int64Amount.scale := 0 |};
     Quantity.d := None;
     Quantity.s := "";
     Quantity.Format := format |}.

Definition vcTemplate : list PersistentVolumeClaim.t :=
  [ {| PersistentVolumeClaim.ObjectMeta :=
         {| ObjectMeta.Name := volumeMountName;
            ObjectMeta.Namespace := "";
            ObjectMeta.Labels := ∅ |};
       PersistentVolumeClaim.Spec :=
         {| PersistentVolumeClaimSpec.AccessModes := [ ReadWriteOnce ];
            PersistentVolumeClaimSpec.Resources :=
              {| ResourceRequirements.Requests :=
                   {[ ResourceStorage := Quantity_with_Format "1Gi" ]};
                 ResourceRequirements.Limits :=
                   {[ ResourceStorage := Quantity_with_Format "2Gi" ]} |}
         |} |} ].

Definition sts (ret : MySQL.t) : StatefulSet.t :=
  {| StatefulSet.ObjectMeta :=
       {| ObjectMeta.Name := MySQL.Name ret +:+ "-deployment";
          ObjectMeta.Namespace := MySQL.Namespace ret;
          ObjectMeta.Labels := ∅ |};
     StatefulSet.Spec :=
       {| StatefulSetSpec.Selector :=
            Some {| LabelSelector.MatchLabels :=
                      {[ matchLabelKey := matchLabelVal ]} |};
          StatefulSetSpec.ServiceName := serviceName;
          StatefulSetSpec.Replicas := Some replicas;
          StatefulSetSpec.Template := podTemplate ret;
          StatefulSetSpec.VolumeClaimTemplates := vcTemplate |} |}.

(** ** Requests to the API server *)

(** One constructor per clientset method the controller calls:
    [crClient.VolcV1alpha1().MySQLs(ns)] for the first two,
    [k8sClient.CoreV1().Secrets(ns)], [k8sClient.CoreV1().Services(ns)] and
    [k8sClient.AppsV1().StatefulSets(ns)] for the others. *)
Inductive Call :=
| MySQLs_UpdateStatus (ns : string) (obj : MySQL.t)
| MySQLs_Delete (ns name : string)
| Secrets_Create (ns : string) (obj : Secret.t)
| Secrets_Delete (ns name : string)
| Services_Create (ns : string) (obj : Service.t)
| Services_Delete (ns name : string)
| StatefulSets_Create (ns : string) (obj : StatefulSet.t)
| StatefulSets_Delete (ns name : string).

Inductive Verb := UpdateStatus | Create | Delete.
Inductive Kind := KMySQL | KSecret | KService | KStatefulSet.

Definition verb_of (c : Call) : Verb :=
  match c with
  | MySQLs_UpdateStatus _ _ => UpdateStatus
  | Secrets_Create _ _ | Services_Create _ _ | StatefulSets_Create _ _ => Create
  | MySQLs_Delete _ _ | Secrets_Delete _ _ | Services_Delete _ _
  | StatefulSets_Delete _ _ => Delete
  end.

Definition kind_of (c : Call) : Kind :=
  match c with
  | MySQLs_UpdateStatus _ _ | MySQLs_Delete _ _ => KMySQL
  | Secrets_Create _ _ | Secrets_Delete _ _ => KSecret
  | Services_Create _ _ | Services_Delete _ _ => KService
  | StatefulSets_Create _ _ | StatefulSets_Delete _ _ => KStatefulSet
  end.

Definition Verb_eqb (a b : Verb) : bool :=
  match a, b with
  | UpdateStatus, UpdateStatus | Create, Create | Delete, Delete => true
  | _, _ => false
  end.

Definition Kind_eqb (a b : Kind) : bool :=
  match a, b with
  | KMySQL, KMySQL | KSecret, KSecret | KService, KService
  | KStatefulSet, KStatefulSet => true
  | _, _ => false
  end.

(** The interface both clientsets implement against one API server whose
    state is [Σ]: a request returns [nil] or an error and moves the server
    to a new state. *)
Class Clientset (Σ : Type) := serve : Call → Σ → option error * Σ.

(** klog output.  [InfoS] and [ErrorS] carry the message and the key/value
    pairs, [ErrorS] also the error it was handed (possibly [nil]). *)
Inductive LogLine :=
| InfoS (msg : string) (keysAndValues : list string)
| Errorf (format : string)
| ErrorS (err : option error) (msg : string) (keysAndValues : list string).

Definition Trace := list (Call * option error).

(** The [interface{}] payload of an informer notification: a [*MySQL], or a
    value of some other dynamic type (for which the type assertion fails). *)
Inductive Object :=
| ObjMySQL (mysqlObj : MySQL.t)
| ObjOther.

(** ** The controller *)

Section Controller.
Context {Σ : Type} `{!Clientset Σ}.

Record World := mkWorld {
  cluster : Σ;
  calls : Trace;
  logs : list LogLine
}.

Definition M (A : Type) : Type := World → A * World.

#[export] Instance M_ret : MRet M := λ A a w, (a, w).
#[export] Instance M_bind : MBind M :=
  λ A B f m w, let '(a, w') := m w in f a w'.

(** A blocking request through a clientset: the server answers, and the
    request is recorded with its answer. *)
Definition call (c : Call) : M (option error) := λ w,
  let '(err, σ) := serve c (cluster w) in
  (err, {| cluster := σ; calls := calls w ++ [(c, err)]; logs := logs w |}).

Definition klog (l : LogLine) : M unit := λ w,
  (tt, {| cluster := cluster w; calls := calls w; logs := logs w ++ [l] |}).

(** [func (c *Controller) add(obj interface{})] *)
Definition add (obj : Object) : M unit :=
  klog (InfoS "Receive ADD Event." []) ;;
  match obj with
  | ObjOther => klog (Errorf "Failed to type assert object: %v")
  | ObjMySQL mysqlObj =>
    klog (InfoS "obj" ["namespace"; MySQL.Namespace mysqlObj;
                       "name"; MySQL.Name mysqlObj;
                       "version"; MySQLSpec.Version (MySQL.Spec mysqlObj)]) ;;
    let ret := MySQL.DeepCopy mysqlObj in
    let ret := MySQL.set_Status_Message "Received In ADD" ret in
    err ← call (MySQLs_UpdateStatus (MySQL.Namespace ret) ret) ;
    if err is Some _ then
      klog (ErrorS err "Failed to update status"
              ["namespace"; MySQL.Namespace ret; "name"; MySQL.Name ret])
    else
    klog (InfoS "Update Status."
            ["namespace"; MySQL.Namespace ret; "name"; MySQL.Name ret;
             "version"; MySQLSpec.Version (MySQL.Spec mysqlObj)]) ;;
    err ← call (Secrets_Create (MySQL.Namespace ret) secret) ;
    if err is Some _ then
      let ret := MySQL.set_Status_Message "Failed" ret in
      err ← call (MySQLs_UpdateStatus (MySQL.Namespace ret) ret) ;
      if err is Some _ then
        klog (ErrorS err "Failed to update status"
                ["namespace"; MySQL.Namespace ret; "name"; MySQL.Name ret])
      else
      klog (ErrorS err "Failed to create secret"
              ["namespace"; MySQL.Namespace ret; "name"; secretName])
    else
    err ← call (Services_Create (MySQL.Namespace ret) service) ;
    if err is Some _ then
      let ret := MySQL.set_Status_Message "Failed" ret in
      err ← call (MySQLs_UpdateStatus (MySQL.Namespace ret) ret) ;
      if err is Some _ then
        klog (ErrorS err "Failed to update status"
                ["namespace"; MySQL.Namespace ret; "name"; MySQL.Name ret])
      else
      call (Secrets_Delete (MySQL.Namespace ret) secretName) ;;
      klog (ErrorS err "Failed to create service"
              ["namespace"; MySQL.Namespace ret; "name"; MySQL.Name ret])
    else
    err ← call (StatefulSets_Create (MySQL.Namespace ret) (sts ret)) ;
    if err is Some _ then
      let ret := MySQL.set_Status_Message "Failed" ret in
      err ← call (MySQLs_UpdateStatus (MySQL.Namespace ret) ret) ;
      if err is Some _ then
        klog (ErrorS err "Failed to update status"
                ["namespace"; MySQL.Namespace ret; "name"; MySQL.Name ret])
      else
      call (Secrets_Delete (MySQL.Namespace ret) secretName) ;;
      call (Services_Delete (MySQL.Namespace ret) serviceName) ;;
      mret tt
    else mret tt
  end.

(** [func (c *Controller) update(old, new interface{})] *)
Definition update (old new : Object) : M unit :=
  klog (InfoS "Receive UPDATE Event." []) ;;
  match old with
  | ObjOther => klog (Errorf "Failed to type assert old: %v")
  | ObjMySQL oldObj =>
    klog (InfoS "old" ["namespace"; MySQL.Namespace oldObj;
                       "name"; MySQL.Name oldObj;
                       "version"; MySQLSpec.Version (MySQL.Spec oldObj)]) ;;
    match new with
    | ObjOther => klog (Errorf "Failed to type assert new: %v")
    | ObjMySQL newObj =>
      klog (InfoS "new" ["namespace"; MySQL.Namespace newObj;
                         "name"; MySQL.Name newObj;
                         "version"; MySQLSpec.Version (MySQL.Spec newObj)])
    end
  end.

(** [func (c *Controller) delete(obj interface{})] *)
Definition delete (obj : Object) : M unit :=
  klog (InfoS "Receive DELETE Event." []) ;;
  match obj with
  | ObjOther => klog (Errorf "Failed to type assert object: %v")
  | ObjMySQL mysqlObj =>
    klog (InfoS "obj" ["namespace"; MySQL.Namespace mysqlObj;
                       "name"; MySQL.Name mysqlObj;
                       "version"; MySQLSpec.Version (MySQL.Spec mysqlObj)]) ;;
    call (MySQLs_Delete (MySQL.Namespace mysqlObj) (MySQL.Name mysqlObj)) ;;
    call (Secrets_Delete (MySQL.Namespace mysqlObj) secretName) ;;
    call (Services_Delete (MySQL.Namespace mysqlObj) serviceName) ;;
    call (StatefulSets_Delete (MySQL.Namespace mysqlObj)
            (MySQL.Name mysqlObj +:+ "-deployment")) ;;
    mret tt
  end.

(** A handler invocation against a server in state [σ], nothing recorded
    before it. *)
Definition init (σ : Σ) : World := {| cluster := σ; calls := []; logs := [] |}.
Definition run (h : M unit) (σ : Σ) : World := (h (init σ)).2.
Definition observe (h : M unit) (σ : Σ) : Trace := calls (run h σ).
End Controller.

Arguments World : clear implicits.
Arguments M : clear implicits.

(** ** Observations on a trace *)

Definition requests (tr : Trace) : list Call := tr.*1.

Definition with_verb (v : Verb) (tr : Trace) : list Call :=
  List.filter (λ c, Verb_eqb (verb_of c) v) (requests tr).

Definition creates : Trace → list Call := with_verb Create.
Definition deletes : Trace → list Call := with_verb Delete.
Definition status_updates : Trace → list Call := with_verb UpdateStatus.

Definition is_err (err : option error) : bool :=
  if err is Some _ then true else false.

(** Some [v] request on a [k] returned an error. *)
Definition fails (v : Verb) (k : Kind) (tr : Trace) : bool :=
  existsb (λ e, Verb_eqb (verb_of e.1) v && Kind_eqb (kind_of e.1) k
                && is_err e.2) tr.

(** The request persists the status message [msg]. *)
Definition persists (msg : string) (c : Call) : bool :=
  match c with
  | MySQLs_UpdateStatus _ obj =>
      String.eqb (MySQLStatus.Message (MySQL.Status obj)) msg
  | _ => false
  end.

Definition persist_fails (msg : string) (tr : Trace) : bool :=
  existsb (λ e, persists msg e.1 && is_err e.2) tr.

Definition persist_succeeds (msg : string) (tr : Trace) : bool :=
  existsb (λ e, persists msg e.1 && negb (is_err e.2)) tr.

(** No request of the trace returned an error. *)
Definition no_failure (tr : Trace) : bool :=
  forallb (λ e, negb (is_err e.2)) tr.

(** The status message the server holds after the trace, as far as the
    trace determines it: that of the last status update it accepted. *)
Definition persisted_status (tr : Trace) : option string :=
  last (omap (λ e, match e with
                   | (MySQLs_UpdateStatus _ obj, None) =>
                       Some (MySQLStatus.Message (MySQL.Status obj))
                   | _ => None
                   end) tr).

(** The secrets handed to [Secrets(ns).Create]. *)
Definition created_secrets (tr : Trace) : list Secret.t :=
  omap (λ c, if c is Secrets_Create _ obj then Some obj else None)
       (requests tr).

(** ** A scripted API server

    Its state is the list of answers still to give, one per request in
    the order the requests arrive; once the list is used up every request
    succeeds.  Any finite pattern of failures is one such script. *)
Definition Script := list (option error).

#[export] Instance scripted : Clientset Script := λ _ σ,
  match σ with
  | [] => (None, [])
  | err :: σ' => (err, σ')
  end.

(** The custom resource of the end-to-end scenario. *)
Definition db1 : MySQL.t :=
  {| MySQL.ObjectMeta :=
       {| ObjectMeta.Name := "db1";
          ObjectMeta.Namespace := "default";
          ObjectMeta.Labels := ∅ |};
     MySQL.Spec := {| MySQLSpec.Version := "8.0" |};
     MySQL.Status := {| MySQLStatus.Message := "" |} |}.

(** Scripts and a second custom resource for concrete runs. *)
Definition all_succeed : Script := [].
Definition status_rejected : Script := [ Some "not found" ].
Definition service_rejected : Script :=
  [ None; None; Some "already exists" ].
Definition service_rejected_status_lost : Script :=
  [ None; None; Some "already exists"; Some "conflict" ].
Definition workload_rejected : Script :=
  [ None; None; None; Some "already exists" ].
Definition workload_rejected_status_lost : Script :=
  [ None; None; None; Some "already exists"; Some "conflict" ].

Definition db2 : MySQL.t :=
  {| MySQL.ObjectMeta :=
       {| ObjectMeta.Name := "db2";
          ObjectMeta.Namespace := "staging";
          ObjectMeta.Labels := ∅ |};
     MySQL.Spec := {| MySQLSpec.Version := "5.7" |};
     MySQL.Status := {| MySQLStatus.Message := "" |} |}.

(** ** The runs of [add]

    Whatever the server does, a run of [add] on a custom resource takes one
    of eight courses, told apart by which request is the first to fail and
    by whether the status "Failed" could then be persisted. *)

Definition received (m : MySQL.t) : MySQL.t :=
  MySQL.set_Status_Message "Received In ADD" (MySQL.DeepCopy m).

Definition failed (m : MySQL.t) : MySQL.t :=
  MySQL.set_Status_Message "Failed" (received m).

Definition log_event (m : MySQL.t) : list LogLine :=
  [ InfoS "Receive ADD Event." [];
    InfoS "obj" ["namespace"; MySQL.Namespace m; "name"; MySQL.Name m;
                 "version"; MySQLSpec.Version (MySQL.Spec m)] ].

Definition log_received (m : MySQL.t) : list LogLine :=
  log_event m ++
  [ InfoS "Update Status."
      ["namespace"; MySQL.Namespace m; "name"; MySQL.Name m;
       "version"; MySQLSpec.Version (MySQL.Spec m)] ].

Definition log_status_error (m : MySQL.t) (e : error) : LogLine :=
  ErrorS (Some e) "Failed to update status"
    ["namespace"; MySQL.Namespace m; "name"; MySQL.Name m].

Inductive add_run (m : MySQL.t) : Trace → list LogLine → Prop :=
| run_status_rejected e :
    add_run m
      [ (MySQLs_UpdateStatus (MySQL.Namespace m) (received m), Some e) ]
      (log_event m ++ [ log_status_error m e ])
| run_secret_failed_unreported e e' :
    add_run m
      [ (MySQLs_UpdateStatus (MySQL.Namespace m) (received m), None);
        (Secrets_Create (MySQL.Namespace m) secret, Some e);
        (MySQLs_UpdateStatus (MySQL.Namespace m) (failed m), Some e') ]
      (log_received m ++ [ log_status_error m e' ])
| run_secret_failed e :
    add_run m
      [ (MySQLs_UpdateStatus (MySQL.Namespace m) (received m), None);
        (Secrets_Create (MySQL.Namespace m) secret, Some e);
        (MySQLs_UpdateStatus (MySQL.Namespace m) (failed m), None) ]
      (log_received m ++
       [ ErrorS None "Failed to create secret"
           ["namespace"; MySQL.Namespace m; "name"; secretName] ])
| run_service_failed_unreported e e' :
    add_run m
      [ (MySQLs_UpdateStatus (MySQL.Namespace m) (received m), None);
        (Secrets_Create (MySQL.Namespace m) secret, None);
        (Services_Create (MySQL.Namespace m) service, Some e);
        (MySQLs_UpdateStatus (MySQL.Namespace m) (failed m), Some e') ]
      (log_received m ++ [ log_status_error m e' ])
| run_service_failed e r :
    add_run m
      [ (MySQLs_UpdateStatus (MySQL.Namespace m) (received m), None);
        (Secrets_Create (MySQL.Namespace m) secret, None);
        (Services_Create (MySQL.Namespace m) service, Some e);
        (MySQLs_UpdateStatus (MySQL.Namespace m) (failed m), None);
        (Secrets_Delete (MySQL.Namespace m) secretName, r) ]
      (log_received m ++
       [ ErrorS None "Failed to create service"
           ["namespace"; MySQL.Namespace m; "name"; MySQL.Name m] ])
| run_workload_failed_unreported e e' :
    add_run m
      [ (MySQLs_UpdateStatus (MySQL.Namespace m) (received m), None);
        (Secrets_Create (MySQL.Namespace m) secret, None);
        (Services_Create (MySQL.Namespace m) service, None);
        (StatefulSets_Create (MySQL.Namespace m) (sts (received m)), Some e);
        (MySQLs_UpdateStatus (MySQL.Namespace m) (failed m), Some e') ]
      (log_received m ++ [ log_status_error m e' ])
| run_workload_failed e r r' :
    add_run m
      [ (MySQLs_UpdateStatus (MySQL.Namespace m) (received m), None);
        (Secrets_Create (MySQL.Namespace m) secret, None);
        (Services_Create (MySQL.Namespace m) service, None);
        (StatefulSets_Create (MySQL.Namespace m) (sts (received m)), Some e);
        (MySQLs_UpdateStatus (MySQL.Namespace m) (failed m), None);
        (Secrets_Delete (MySQL.Namespace m) secretName, r);
        (Services_Delete (MySQL.Namespace m) serviceName, r') ]
      (log_received m)
| run_done :
    add_run m
      [ (MySQLs_UpdateStatus (MySQL.Namespace m) (received m), None);
        (Secrets_Create (MySQL.Namespace m) secret, None);
        (Services_Create (MySQL.Namespace m) service, None);
        (StatefulSets_Create (MySQL.Namespace m) (sts (received m)), None) ]
      (log_received m).

(** The requests and the log lines of one [add] notification carrying the
    custom resource [m], against a server in state [σ]. *)
Definition add_calls `{!Clientset Σ} (m : MySQL.t) (σ : Σ) : Trace :=
  observe (add (ObjMySQL m)) σ.

Definition add_logs `{!Clientset Σ} (m : MySQL.t) (σ : Σ) : list LogLine :=
  logs (run (add (ObjMySQL m)) σ).

(** A request for a deletion of a [k]. *)
Definition deletion (k : Kind) (c : Call) : bool :=
  Verb_eqb (verb_of c) Delete && Kind_eqb (kind_of c) k.

(** Some request satisfying [p] is sent before some request satisfying [q]. *)
Fixpoint precedes (p q : Call → bool) (l : list Call) : bool :=
  match l with
  | [] => false
  | c :: l' => p c && existsb q l' || precedes p q l'
  end.

(** ** What a request is about *)

Definition namespace_of (c : Call) : string :=
  match c with
  | MySQLs_UpdateStatus ns _ | MySQLs_Delete ns _
  | Secrets_Create ns _ | Secrets_Delete ns _
  | Services_Create ns _ | Services_Delete ns _
  | StatefulSets_Create ns _ | StatefulSets_Delete ns _ => ns
  end.

(** The name of the object concerned: the [Name] of the object's metadata
    for a creation or a status update, the name argument for a deletion. *)
Definition name_of (c : Call) : string :=
  match c with
  | MySQLs_UpdateStatus _ obj => MySQL.Name obj
  | Secrets_Create _ obj => ObjectMeta.Name (Secret.ObjectMeta obj)
  | Services_Create _ obj => ObjectMeta.Name (Service.ObjectMeta obj)
  | StatefulSets_Create _ obj => ObjectMeta.Name (StatefulSet.ObjectMeta obj)
  | MySQLs_Delete _ name | Secrets_Delete _ name | Services_Delete _ name
  | StatefulSets_Delete _ name => name
  end.

(** Kind, namespace and name: what identifies an object on the server. *)
Definition target (c : Call) : Kind * string * string :=
  (kind_of c, namespace_of c, name_of c).

(** The requests with verb [v] that the server accepted. *)
Definition successful (v : Verb) (tr : Trace) : list Call :=
  omap (λ e, if Verb_eqb (verb_of e.1) v && negb (is_err e.2)
             then Some e.1 else None) tr.

(** The errors returned to the requests with verb [v]. *)
Definition errors_of (v : Verb) (tr : Trace) : list error :=
  omap (λ e, if Verb_eqb (verb_of e.1) v then e.2 else None) tr.

(** Some creation returned an error. *)
Definition create_fails (tr : Trace) : bool :=
  existsb (λ e, Verb_eqb (verb_of e.1) Create && is_err e.2) tr.

(** The objects handed to [MySQLs(ns).UpdateStatus]. *)
Definition updated_objects (tr : Trace) : list MySQL.t :=
  omap (λ c, if c is MySQLs_UpdateStatus _ obj then Some obj else None)
       (requests tr).

(** The errors that klog was handed. *)
Definition logged_errors (lg : list LogLine) : list error :=
  omap (λ l, if l is ErrorS (Some e) _ _ then Some e else None) lg.

(** The messages of the error lines (written by [ErrorS] or [Errorf]). *)
Definition error_messages (lg : list LogLine) : list string :=
  omap (λ l, match l with
             | ErrorS _ msg _ => Some msg
             | Errorf format => Some format
             | InfoS _ _ => None
             end) lg.

Definition secret_rejected : Script := [ None; Some "already exists" ].

Definition db3 : MySQL.t :=
  {| MySQL.ObjectMeta :=
       {| ObjectMeta.Name := "db3";
          ObjectMeta.Namespace := "default";
          ObjectMeta.Labels := ∅ |};
     MySQL.Spec := {| MySQLSpec.Version := "5.7" |};
     MySQL.Status := {| MySQLStatus.Message := "" |} |}.

(** ** The handlers registered by [NewController]

    [cache.ResourceEventHandlerFuncs{AddFunc: controller.add, UpdateFunc:
    controller.update, DeleteFunc: controller.delete}]: the informer hands
    each notification to the function registered for it. *)
Inductive Notification :=
| OnAdd (obj : Object)
| OnUpdate (oldObj newObj : Object)
| OnDelete (obj : Object).

Definition handle `{!Clientset Σ} (n : Notification) : M Σ unit :=
  match n with
  | OnAdd obj => add obj
  | OnUpdate oldObj newObj => update oldObj newObj
  | OnDelete obj => delete obj
  end.

(** ** An API server that stores objects

    The contract of the server the clientsets talk to, as far as names go:
    a creation is refused when an object of that kind, namespace and name
    exists and stores the object otherwise; a deletion or a status update
    is refused when there is no such object.  [objects] is the set of the
    objects stored, [status] the status message of each custom resource
    by namespace and name (dropped when the resource is deleted). *)
#[export] Instance Kind_eq_dec : EqDecision Kind.
Proof. solve_decision. Defined.

#[export] Instance Kind_countable : Countable Kind.
Proof.
  refine (inj_countable'
    (λ k, match k with
          | KMySQL => 0 | KSecret => 1 | KService => 2 | KStatefulSet => 3
          end%nat)
    (λ n, match n with
          | 0 => KMySQL | 1 => KSecret | 2 => KService | _ => KStatefulSet
          end%nat) _).
  intros []; reflexivity.
Defined.

Record Cluster := mkCluster {
  objects : gset (Kind * string * string);
  status : gmap (string * string) string
}.

Definition cluster_create (t : Kind * string * string) (c : Cluster)
    : option error * Cluster :=
  if decide (t ∈ objects c) then (Some "already exists", c)
  else (None, {| objects := {[ t ]} ∪ objects c; status := status c |}).

Definition cluster_delete (t : Kind * string * string) (c : Cluster)
    : option error * Cluster :=
  if decide (t ∈ objects c)
  then (None, {| objects := objects c ∖ {[ t ]};
                 status := if t.1.1 is KMySQL
                           then base.delete (t.1.2, t.2) (status c)
                           else status c |})
  else (Some "not found", c).

Definition cluster_update_status (t : Kind * string * string) (msg : string)
    (c : Cluster) : option error * Cluster :=
  if decide (t ∈ objects c)
  then (None, {| objects := objects c;
                 status := <[ (t.1.2, t.2) := msg ]> (status c) |})
  else (Some "not found", c).

#[export] Instance cluster_server : Clientset Cluster := λ call c,
  match verb_of call with
  | Create => cluster_create (target call) c
  | Delete => cluster_delete (target call) c
  | UpdateStatus =>
      match call with
      | MySQLs_UpdateStatus _ obj =>
          cluster_update_status (target call)
            (MySQLStatus.Message (MySQL.Status obj)) c
      | _ => (None, c)
      end
  end.

(** The objects [add] provisions for the custom resource [m], and the
    custom resource itself. *)
Definition resource_of (m : MySQL.t) : Kind * string * string :=
  (KMySQL, MySQL.Namespace m, MySQL.Name m).

Definition dependents_of (m : MySQL.t) : gset (Kind * string * string) :=
  {[ (KSecret, MySQL.Namespace m, secretName);
     (KService, MySQL.Namespace m, serviceName);
     (KStatefulSet, MySQL.Namespace m, MySQL.Name m +:+ "-deployment") ]}.

(** A server that stores the custom resources "db1" and "db3" of namespace
    "default" and nothing else. *)
Definition two_resources : Cluster :=
  {| objects := {[ resource_of db1; resource_of db3 ]}; status := ∅ |}.

(** ** Properties *)

Section Properties.
Context {Σ : Type} `{!Clientset Σ}.

#[local] Opaque secret service sts.

Ltac answer :=
  match goal with
  | |- context [serve ?c ?σ] =>
      let e := fresh "e" in
      destruct (serve c σ) as [[e|] ?]; cbn
  end.

Lemma add_runs (m : MySQL.t) (σ : Σ) :
  add_run m (add_calls m σ) (add_logs m σ).
Proof.
  unfold add_calls, add_logs, observe, run, add, init, call, klog, mbind, M_bind, mret, M_ret.
  cbn.
  answer; [exact (run_status_rejected m _)|].
  answer.
  { answer; [exact (run_secret_failed_unreported m _ _)
            |exact (run_secret_failed m _)]. }
  answer.
  { answer; [exact (run_service_failed_unreported m _ _)|].
    answer; exact (run_service_failed m _ _). }
  answer; [|exact (run_done m)].
  answer; [exact (run_workload_failed_unreported m _ _)|].
  answer; answer; exact (run_workload_failed m _ _ _).
Qed.

Ltac cases m σ :=
  destruct (add_runs m σ); cbn; try discriminate.

(** C1 (as amended).  When the creation of the StatefulSet fails and the
    status "Failed" is persisted, [add] sends exactly two deletions: that
    of the Secret first, then that of the Service.  No deletion of the
    Service comes before a deletion of the Secret. *)
Theorem add_workload_failure_deletes_secret_then_service
    (m : MySQL.t) (σ : Σ) :
  fails Create KStatefulSet (add_calls m σ) = true →
  persist_succeeds "Failed" (add_calls m σ) = true →
  deletes (add_calls m σ) =
    [ Secrets_Delete (MySQL.Namespace m) secretName;
      Services_Delete (MySQL.Namespace m) serviceName ]
  ∧ precedes (deletion KSecret) (deletion KService)
      (requests (add_calls m σ)) = true
  ∧ precedes (deletion KService) (deletion KSecret)
      (requests (add_calls m σ)) = false.
Proof. cases m σ. done. Qed.

(** C3.  An [add] in which no request fails sends exactly three creations,
    of the Secret, of the Service and of the StatefulSet in that order,
    and no deletion; its only status update carries "Received In ADD",
    which is the status left persisted. *)
Theorem add_success_creates_in_order (m : MySQL.t) (σ : Σ) :
  no_failure (add_calls m σ) = true →
  creates (add_calls m σ) =
    [ Secrets_Create (MySQL.Namespace m) secret;
      Services_Create (MySQL.Namespace m) service;
      StatefulSets_Create (MySQL.Namespace m) (sts (received m)) ]
  ∧ deletes (add_calls m σ) = []
  ∧ status_updates (add_calls m σ) =
      [ MySQLs_UpdateStatus (MySQL.Namespace m) (received m) ]
  ∧ MySQLStatus.Message (MySQL.Status (received m)) = "Received In ADD"
  ∧ persisted_status (add_calls m σ) = Some "Received In ADD".
Proof. cases m σ. done. Qed.

(** C6.  When persisting "Received In ADD" fails, that status update is
    the only request of the run: [add] sends no creation and no
    deletion. *)
Theorem add_first_persist_failure_aborts (m : MySQL.t) (σ : Σ) :
  persist_fails "Received In ADD" (add_calls m σ) = true →
  requests (add_calls m σ) =
    [ MySQLs_UpdateStatus (MySQL.Namespace m) (received m) ]
  ∧ creates (add_calls m σ) = []
  ∧ deletes (add_calls m σ) = [].
Proof. cases m σ. done. Qed.

(** C2 (as amended).  After the creation of the Service or of the
    StatefulSet has failed, the compensating deletions are sent only when
    the status "Failed" could be persisted.  When that status update
    fails, the failure is logged, the handler returns and no deletion is
    sent. *)
Theorem add_compensates_only_once_failed_is_persisted
    (m : MySQL.t) (σ : Σ) :
  fails Create KService (add_calls m σ)
    || fails Create KStatefulSet (add_calls m σ) = true →
  if persist_succeeds "Failed" (add_calls m σ)
  then head (deletes (add_calls m σ)) =
         Some (Secrets_Delete (MySQL.Namespace m) secretName)
  else persist_fails "Failed" (add_calls m σ) = true
       ∧ deletes (add_calls m σ) = []
       ∧ ∃ e, last (add_logs m σ) = Some (log_status_error m e).
Proof. cases m σ; eauto. Qed.

(** C4 (as amended).  When the creation of the Service fails and the
    status "Failed" is persisted, [add] sends exactly one deletion, that
    of the Secret, and never asks for the creation of a StatefulSet; the
    status left persisted is "Failed". *)
Theorem add_service_failure_deletes_secret (m : MySQL.t) (σ : Σ) :
  fails Create KService (add_calls m σ) = true →
  persist_succeeds "Failed" (add_calls m σ) = true →
  deletes (add_calls m σ) =
    [ Secrets_Delete (MySQL.Namespace m) secretName ]
  ∧ creates (add_calls m σ) =
      [ Secrets_Create (MySQL.Namespace m) secret;
        Services_Create (MySQL.Namespace m) service ]
  ∧ persisted_status (add_calls m σ) = Some "Failed".
Proof. cases m σ. done. Qed.

(** C5.  On a DELETE notification carrying a custom resource, [delete]
    sends four deletions and nothing else, whatever the server answers to
    each: the custom resource, the Secret, the Service, and the
    StatefulSet named after the resource with the suffix "-deployment",
    in that order.  Against the scripted server, whichever of the four
    answers [r1] to [r4] are errors, each deletion is sent once and gets
    its answer. *)
Theorem delete_sends_all_four_deletions
    (m : MySQL.t) (σ : Σ) (r1 r2 r3 r4 : option error) :
  requests (observe (delete (ObjMySQL m)) σ) =
    [ MySQLs_Delete (MySQL.Namespace m) (MySQL.Name m);
      Secrets_Delete (MySQL.Namespace m) secretName;
      Services_Delete (MySQL.Namespace m) serviceName;
      StatefulSets_Delete (MySQL.Namespace m)
        (MySQL.Name m +:+ "-deployment") ]
  ∧ observe (delete (ObjMySQL m)) ([r1; r2; r3; r4] : Script) =
      [ (MySQLs_Delete (MySQL.Namespace m) (MySQL.Name m), r1);
        (Secrets_Delete (MySQL.Namespace m) secretName, r2);
        (Services_Delete (MySQL.Namespace m) serviceName, r3);
        (StatefulSets_Delete (MySQL.Namespace m)
           (MySQL.Name m +:+ "-deployment"), r4) ].
Proof.
  split; [|reflexivity].
  unfold observe, run, delete, init, call, klog, mbind, M_bind, mret, M_ret.
  cbn. do 4 answer; reflexivity.
Qed.

(** C9.  On an UPDATE notification, whatever the two snapshots are,
    [update] sends no request at all (no creation, no deletion, no status
    update) and leaves the server as it was; it only writes log lines,
    one for each snapshot when both are custom resources. *)
Theorem update_sends_no_request (old new : Object) (w : World Σ) :
  calls (update old new w).2 = calls w
  ∧ cluster (update old new w).2 = cluster w
  ∧ observe (update old new) (cluster w) = []
  ∧ (∃ lines, logs (update old new w).2 =
                logs w ++ InfoS "Receive UPDATE Event." [] :: lines)
  ∧ ∀ oldObj newObj : MySQL.t,
      logs (run (update (ObjMySQL oldObj) (ObjMySQL newObj)) (cluster w)) =
        [ InfoS "Receive UPDATE Event." [];
          InfoS "old" ["namespace"; MySQL.Namespace oldObj;
                       "name"; MySQL.Name oldObj;
                       "version"; MySQLSpec.Version (MySQL.Spec oldObj)];
          InfoS "new" ["namespace"; MySQL.Namespace newObj;
                       "name"; MySQL.Name newObj;
                       "version"; MySQLSpec.Version (MySQL.Spec newObj)] ].
Proof.
  unfold observe, run, update, init, klog, mbind, M_bind.
  destruct old as [oldObj|], new as [newObj|]; cbn;
    repeat split; try done; rewrite <- ?app_assoc; eauto.
Qed.
End Properties.

(** ** The objects sent by [add] *)

Section Objects.
Context {Σ : Type} `{!Clientset Σ}.

#[local] Opaque secret service sts.

Lemma created_secrets_add (m : MySQL.t) (σ : Σ) :
  created_secrets (add_calls m σ) = []
  ∨ created_secrets (add_calls m σ) = [secret].
Proof. destruct (add_runs m σ); cbn; auto. Qed.

(** C7.  For the custom resource "db1" of namespace "default" with
    version "8.0", an [add] in which no request fails persists the status
    "Received In ADD", then creates, in namespace "default", the Secret
    "mysql-password", the Service "mysql" with port 3306 and selector
    app=mysql, and the StatefulSet "db1-deployment" with one replica and
    the container image "arm64v8/mysql:8.0". *)
Theorem add_db1_end_to_end (σ : Σ) :
  no_failure (add_calls db1 σ) = true →
  ∃ cr s svc st,
    requests (add_calls db1 σ) =
      [ MySQLs_UpdateStatus "default" cr; Secrets_Create "default" s;
        Services_Create "default" svc; StatefulSets_Create "default" st ]
    ∧ MySQLStatus.Message (MySQL.Status cr) = "Received In ADD"
    ∧ persisted_status (add_calls db1 σ) = Some "Received In ADD"
    ∧ ObjectMeta.Name (Secret.ObjectMeta s) = "mysql-password"
    ∧ ObjectMeta.Name (Service.ObjectMeta svc) = "mysql"
    ∧ ServiceSpec.Ports (Service.Spec svc) = [ {| ServicePort.Port := 3306 |} ]
    ∧ ServiceSpec.Selector (Service.Spec svc) = {[ "app" := "mysql" ]}
    ∧ ObjectMeta.Name (StatefulSet.ObjectMeta st) = "db1-deployment"
    ∧ StatefulSetSpec.Replicas (StatefulSet.Spec st) = Some 1
    ∧ Container.Image <$>
        PodSpec.Containers
          (PodTemplateSpec.Spec
             (StatefulSetSpec.Template (StatefulSet.Spec st))) =
      [ "arm64v8/mysql:8.0" ].
Proof.
  destruct (add_runs db1 σ); cbn; try discriminate. intros _.
  exists (received db1), secret, service, (sts (received db1)).
  repeat split; vm_compute; reflexivity.
Qed.
End Objects.

(** C10.  Every Secret that [add] asks the server to create, for whatever
    custom resource and against whatever server, is one and the same
    object: it is named "mysql-password", has type "Opaque" and holds the
    single entry MYSQL_ROOT_PASSWORD = "bytedance". *)
Theorem add_secret_is_the_same_for_every_resource
    {Σ1 Σ2 : Type} `{!Clientset Σ1} `{!Clientset Σ2}
    (m1 m2 : MySQL.t) (σ1 : Σ1) (σ2 : Σ2) (s1 s2 : Secret.t) :
  s1 ∈ created_secrets (add_calls m1 σ1) →
  s2 ∈ created_secrets (add_calls m2 σ2) →
  s1 = s2
  ∧ Secret.ObjectMeta s1 =
      {| ObjectMeta.Name := "mysql-password"; ObjectMeta.Namespace := "";
         ObjectMeta.Labels := ∅ |}
  ∧ Secret.Type_ s1 = "Opaque"
  ∧ Secret.StringData s1 = {[ "MYSQL_ROOT_PASSWORD" := "bytedance" ]}.
Proof.
  destruct (created_secrets_add m1 σ1) as [-> | ->],
           (created_secrets_add m2 σ2) as [-> | ->];
    rewrite ?elem_of_nil, ?list_elem_of_singleton; try tauto.
  intros -> ->. repeat split.
Qed.

(** ** Concrete runs against the scripted server *)

(** C8, evaluated.  In the StatefulSet that [add] sends for "db1", the one
    volume claim template maps "storage" to quantities whose amount is zero
    and whose [Format] is the text "1Gi" (requests) and "2Gi" (limits): the
    literals set the notation field of [resource.Quantity], not an amount.
    The rest is as described: the volume "mysql-store" is mounted at
    /var/lib/mysql, MYSQL_ROOT_PASSWORD is taken from the key of that name
    in the Secret "mysql-password", and the grace period is 10 seconds. *)
Theorem add_db1_volume_claim_quantities_are_zero :
  ∃ st pvc c,
    requests (add_calls db1 all_succeed) !! 3%nat =
      Some (StatefulSets_Create "default" st)
    ∧ StatefulSetSpec.VolumeClaimTemplates (StatefulSet.Spec st) = [ pvc ]
    ∧ PodSpec.Containers
        (PodTemplateSpec.Spec
           (StatefulSetSpec.Template (StatefulSet.Spec st))) = [ c ]
    ∧ ResourceRequirements.Requests
        (PersistentVolumeClaimSpec.Resources (PersistentVolumeClaim.Spec pvc))
        !! "storage" =
      Some {| Quantity.i := {| int64Amount.value := 0;
                               int64Amount.scale := 0 |};
              Quantity.d := None; Quantity.s := "";
              Quantity.Format := "1Gi" |}
    ∧ ResourceRequirements.Limits
        (PersistentVolumeClaimSpec.Resources (PersistentVolumeClaim.Spec pvc))
        !! "storage" =
      Some {| Quantity.i := {| int64Amount.value := 0;
                               int64Amount.scale := 0 |};
              Quantity.d := None; Quantity.s := "";
              Quantity.Format := "2Gi" |}
    ∧ Quantity.IsZero <$>
        ResourceRequirements.Requests
          (PersistentVolumeClaimSpec.Resources
             (PersistentVolumeClaim.Spec pvc)) !! "storage" = Some true
    ∧ Quantity.IsZero <$>
        ResourceRequirements.Limits
          (PersistentVolumeClaimSpec.Resources
             (PersistentVolumeClaim.Spec pvc)) !! "storage" = Some true
    ∧ Container.VolumeMounts c =
        [ {| VolumeMount.Name := "mysql-store";
             VolumeMount.MountPath := "/var/lib/mysql" |} ]
    ∧ ObjectMeta.Name (PersistentVolumeClaim.ObjectMeta pvc) = "mysql-store"
    ∧ Container.Env c =
        [ {| EnvVar.Name := "MYSQL_ROOT_PASSWORD";
             EnvVar.Value := "";
             EnvVar.ValueFrom :=
               Some {| EnvVarSource.SecretKeyRef :=
                 Some {| SecretKeySelector.LocalObjectReference :=
                           {| LocalObjectReference.Name := "mysql-password" |};
                         SecretKeySelector.Key := "MYSQL_ROOT_PASSWORD" |} |}
          |} ]
    ∧ PodSpec.TerminationGracePeriodSeconds
        (PodTemplateSpec.Spec
           (StatefulSetSpec.Template (StatefulSet.Spec st))) = Some 10.
Proof.
  eexists (sts (received db1)), _, _.
  repeat split; vm_compute; reflexivity.
Qed.

(** Under C1 as stated the Service would be deleted before the Secret; in
    this run, where the StatefulSet is rejected and "Failed" is persisted,
    the Secret is deleted first and no Service deletion precedes it. *)
Lemma add_workload_failure_service_not_deleted_first :
  fails Create KStatefulSet (add_calls db1 workload_rejected) = true
  ∧ persist_succeeds "Failed" (add_calls db1 workload_rejected) = true
  ∧ deletes (add_calls db1 workload_rejected) =
      [ Secrets_Delete "default" "mysql-password";
        Services_Delete "default" "mysql" ]
  ∧ precedes (deletion KService) (deletion KSecret)
      (requests (add_calls db1 workload_rejected)) = false.
Proof. repeat split; vm_compute; reflexivity. Qed.

Lemma add_workload_failure_deletes_secret_then_service_witness :
  (fails Create KStatefulSet (add_calls db1 workload_rejected) = true
   ∧ persist_succeeds "Failed" (add_calls db1 workload_rejected) = true)
  ∧ deletes (add_calls db1 workload_rejected) =
      [ Secrets_Delete (MySQL.Namespace db1) secretName;
        Services_Delete (MySQL.Namespace db1) serviceName ]
  ∧ precedes (deletion KSecret) (deletion KService)
      (requests (add_calls db1 workload_rejected)) = true
  ∧ precedes (deletion KService) (deletion KSecret)
      (requests (add_calls db1 workload_rejected)) = false.
Proof.
  split; [split; vm_compute; reflexivity|].
  apply (add_workload_failure_deletes_secret_then_service
           db1 workload_rejected); vm_compute; reflexivity.
Defined.

(** Under C2 as stated the deletions would follow a failed creation even
    when "Failed" cannot be persisted; in this run the StatefulSet is
    rejected, the status update fails too, and no deletion is sent. *)
Lemma add_no_compensation_when_status_update_fails :
  fails Create KStatefulSet
    (add_calls db1 workload_rejected_status_lost) = true
  ∧ persist_fails "Failed"
      (add_calls db1 workload_rejected_status_lost) = true
  ∧ creates (add_calls db1 workload_rejected_status_lost) =
      [ Secrets_Create "default" secret; Services_Create "default" service;
        StatefulSets_Create "default" (sts (received db1)) ]
  ∧ deletes (add_calls db1 workload_rejected_status_lost) = [].
Proof. repeat split; vm_compute; reflexivity. Qed.

Lemma add_compensates_only_once_failed_is_persisted_witness :
  fails Create KService (add_calls db1 service_rejected)
    || fails Create KStatefulSet (add_calls db1 service_rejected) = true
  ∧ if persist_succeeds "Failed" (add_calls db1 service_rejected)
    then head (deletes (add_calls db1 service_rejected)) =
           Some (Secrets_Delete (MySQL.Namespace db1) secretName)
    else persist_fails "Failed" (add_calls db1 service_rejected) = true
         ∧ deletes (add_calls db1 service_rejected) = []
         ∧ ∃ e, last (add_logs db1 service_rejected) =
                  Some (log_status_error db1 e).
Proof.
  split; [vm_compute; reflexivity|].
  apply (add_compensates_only_once_failed_is_persisted db1 service_rejected).
  vm_compute; reflexivity.
Defined.

Lemma add_success_creates_in_order_witness :
  no_failure (add_calls db1 all_succeed) = true
  ∧ creates (add_calls db1 all_succeed) =
      [ Secrets_Create (MySQL.Namespace db1) secret;
        Services_Create (MySQL.Namespace db1) service;
        StatefulSets_Create (MySQL.Namespace db1) (sts (received db1)) ]
  ∧ deletes (add_calls db1 all_succeed) = []
  ∧ status_updates (add_calls db1 all_succeed) =
      [ MySQLs_UpdateStatus (MySQL.Namespace db1) (received db1) ]
  ∧ MySQLStatus.Message (MySQL.Status (received db1)) = "Received In ADD"
  ∧ persisted_status (add_calls db1 all_succeed) = Some "Received In ADD".
Proof.
  split; [vm_compute; reflexivity|].
  apply (add_success_creates_in_order db1 all_succeed).
  vm_compute; reflexivity.
Defined.

(** Under C4 as stated a failed Service creation is always followed by the
    deletion of the Secret and leaves the status "Failed"; in this run the
    update to "Failed" is refused, no deletion is sent and the status left
    persisted is still "Received In ADD". *)
Lemma add_service_failure_without_deletion :
  fails Create KService (add_calls db2 service_rejected_status_lost) = true
  ∧ deletes (add_calls db2 service_rejected_status_lost) = []
  ∧ deletes (add_calls db2 service_rejected_status_lost) ≠
      [ Secrets_Delete "staging" "mysql-password" ]
  ∧ persisted_status (add_calls db2 service_rejected_status_lost) =
      Some "Received In ADD".
Proof. repeat split; try (vm_compute; reflexivity). vm_compute; discriminate. Qed.

Lemma add_service_failure_deletes_secret_witness :
  (fails Create KService (add_calls db2 service_rejected) = true
   ∧ persist_succeeds "Failed" (add_calls db2 service_rejected) = true)
  ∧ deletes (add_calls db2 service_rejected) =
      [ Secrets_Delete (MySQL.Namespace db2) secretName ]
  ∧ creates (add_calls db2 service_rejected) =
      [ Secrets_Create (MySQL.Namespace db2) secret;
        Services_Create (MySQL.Namespace db2) service ]
  ∧ persisted_status (add_calls db2 service_rejected) = Some "Failed".
Proof.
  split; [split; vm_compute; reflexivity|].
  apply (add_service_failure_deletes_secret db2 service_rejected);
    vm_compute; reflexivity.
Defined.

Lemma add_first_persist_failure_aborts_witness :
  persist_fails "Received In ADD" (add_calls db1 status_rejected) = true
  ∧ requests (add_calls db1 status_rejected) =
      [ MySQLs_UpdateStatus (MySQL.Namespace db1) (received db1) ]
  ∧ creates (add_calls db1 status_rejected) = []
  ∧ deletes (add_calls db1 status_rejected) = [].
Proof.
  split; [vm_compute; reflexivity|].
  apply (add_first_persist_failure_aborts db1 status_rejected).
  vm_compute; reflexivity.
Defined.

Lemma add_db1_end_to_end_witness :
  no_failure (add_calls db1 all_succeed) = true
  ∧ ∃ cr s svc st,
      requests (add_calls db1 all_succeed) =
        [ MySQLs_UpdateStatus "default" cr; Secrets_Create "default" s;
          Services_Create "default" svc; StatefulSets_Create "default" st ]
      ∧ MySQLStatus.Message (MySQL.Status cr) = "Received In ADD"
      ∧ persisted_status (add_calls db1 all_succeed) = Some "Received In ADD"
      ∧ ObjectMeta.Name (Secret.ObjectMeta s) = "mysql-password"
      ∧ ObjectMeta.Name (Service.ObjectMeta svc) = "mysql"
      ∧ ServiceSpec.Ports (Service.Spec svc) = [ {| ServicePort.Port := 3306 |} ]
      ∧ ServiceSpec.Selector (Service.Spec svc) = {[ "app" := "mysql" ]}
      ∧ ObjectMeta.Name (StatefulSet.ObjectMeta st) = "db1-deployment"
      ∧ StatefulSetSpec.Replicas (StatefulSet.Spec st) = Some 1
      ∧ Container.Image <$>
          PodSpec.Containers
            (PodTemplateSpec.Spec
               (StatefulSetSpec.Template (StatefulSet.Spec st))) =
        [ "arm64v8/mysql:8.0" ].
Proof.
  split; [vm_compute; reflexivity|].
  apply (add_db1_end_to_end all_succeed). vm_compute; reflexivity.
Defined.

Lemma add_secret_is_the_same_for_every_resource_witness :
  (secret ∈ created_secrets (add_calls db1 all_succeed)
   ∧ secret ∈ created_secrets (add_calls db2 service_rejected))
  ∧ secret = secret
  ∧ Secret.ObjectMeta secret =
      {| ObjectMeta.Name := "mysql-password"; ObjectMeta.Namespace := "";
         ObjectMeta.Labels := ∅ |}
  ∧ Secret.Type_ secret = "Opaque"
  ∧ Secret.StringData secret = {[ "MYSQL_ROOT_PASSWORD" := "bytedance" ]}.
Proof.
  assert (H1 : secret ∈ created_secrets (add_calls db1 all_succeed))
    by (apply list_elem_of_singleton; vm_compute; reflexivity).
  assert (H2 : secret ∈ created_secrets (add_calls db2 service_rejected))
    by (apply list_elem_of_singleton; vm_compute; reflexivity).
  split; [split; assumption|].
  exact (add_secret_is_the_same_for_every_resource
           db1 db2 all_succeed service_rejected secret secret H1 H2).
Defined.

(** ** Further properties of the handlers *)

Lemma secret_Name : ObjectMeta.Name (Secret.ObjectMeta secret) = secretName.
Proof. reflexivity. Qed.

Lemma service_Name : ObjectMeta.Name (Service.ObjectMeta service) = serviceName.
Proof. reflexivity. Qed.

Lemma sts_Name (ret : MySQL.t) :
  ObjectMeta.Name (StatefulSet.ObjectMeta (sts ret)) =
  MySQL.Name ret +:+ "-deployment".
Proof. reflexivity. Qed.

Lemma list_ascii_of_string_app (a b : string) :
  list_ascii_of_string (a +:+ b) =
  list_ascii_of_string a ++ list_ascii_of_string b.
Proof. induction a as [|x a IH]; simpl; [reflexivity | by rewrite IH]. Qed.

Lemma string_app_inj_r (a b suffix : string) :
  a +:+ suffix = b +:+ suffix → a = b.
Proof.
  intros H. apply (f_equal list_ascii_of_string) in H.
  rewrite !list_ascii_of_string_app in H. apply app_inv_tail in H.
  apply (f_equal string_of_list_ascii) in H.
  by rewrite !string_of_list_ascii_of_string in H.
Qed.

Section Handlers.
Context {Σ : Type} `{!Clientset Σ}.

#[local] Opaque secret service sts.

Ltac reply :=
  match goal with
  | |- context [serve ?c ?σ] =>
      let e := fresh "e" in
      destruct (serve c σ) as [[e|] ?]; cbn
  end.

Ltac names := rewrite ?secret_Name, ?service_Name, ?sts_Name.

(** A notification whose payload is not a [*MySQL] is dropped: [add] and
    [delete] send no request, leave the server alone and log one error
    line; [update] does the same when the old snapshot is ill-typed, and
    then never looks at the new one. *)
Theorem ill_typed_notification_is_dropped (new new' : Object) (σ : Σ) :
  observe (add ObjOther) σ = []
  ∧ observe (delete ObjOther) σ = []
  ∧ cluster (run (add ObjOther) σ) = σ
  ∧ cluster (run (delete ObjOther) σ) = σ
  ∧ error_messages (logs (run (add ObjOther) σ)) =
      [ "Failed to type assert object: %v" ]
  ∧ error_messages (logs (run (delete ObjOther) σ)) =
      [ "Failed to type assert object: %v" ]
  ∧ run (update ObjOther new) σ = run (update ObjOther new') σ
  ∧ error_messages (logs (run (update ObjOther new) σ)) =
      [ "Failed to type assert old: %v" ].
Proof. repeat split. Qed.


(** Every request that [add] or [delete] sends for a custom resource is
    addressed to the namespace of that resource. *)
Theorem requests_stay_in_the_namespace (m : MySQL.t) (σ : Σ) :
  Forall (λ c, namespace_of c = MySQL.Namespace m) (requests (add_calls m σ))
  ∧ Forall (λ c, namespace_of c = MySQL.Namespace m)
      (requests (observe (delete (ObjMySQL m)) σ)).
Proof.
  split.
  - destruct (add_runs m σ); cbn; repeat constructor.
  - unfold observe, run, delete, init, call, klog, mbind, M_bind, mret, M_ret.
    cbn. do 4 reply; repeat constructor.
Qed.

(** [add] never deletes the custom resource or a StatefulSet: its deletions
    are of the Secret "mysql-password" and of the Service "mysql" only.  A
    run sends between one and seven requests, of which at most three
    creations, two deletions and two status updates. *)
Theorem add_deletes_only_secret_and_service (m : MySQL.t) (σ : Σ) :
  Forall (λ c, c = Secrets_Delete (MySQL.Namespace m) secretName
               ∨ c = Services_Delete (MySQL.Namespace m) serviceName)
    (deletes (add_calls m σ))
  ∧ (1 ≤ length (add_calls m σ) ≤ 7)%nat
  ∧ (length (creates (add_calls m σ)) ≤ 3)%nat
  ∧ (length (deletes (add_calls m σ)) ≤ 2)%nat
  ∧ (length (status_updates (add_calls m σ)) ≤ 2)%nat.
Proof.
  destruct (add_runs m σ); cbn; repeat split; try lia;
    repeat (match goal with |- Forall _ _ => constructor end); auto.
Qed.

(** In every run of [add] the creations come in the order Secret, Service,
    StatefulSet with none skipped, the accepted ones as well; a creation
    that fails is the last one: at most one creation fails. *)
Theorem add_creates_in_order_until_first_failure (m : MySQL.t) (σ : Σ) :
  creates (add_calls m σ) `prefix_of`
    [ Secrets_Create (MySQL.Namespace m) secret;
      Services_Create (MySQL.Namespace m) service;
      StatefulSets_Create (MySQL.Namespace m) (sts (received m)) ]
  ∧ successful Create (add_calls m σ) `prefix_of` creates (add_calls m σ)
  ∧ (length (creates (add_calls m σ))
       ≤ S (length (successful Create (add_calls m σ))))%nat.
Proof.
  destruct (add_runs m σ); cbn; repeat split; try lia;
    try (by eexists); apply prefix_nil.
Qed.

(** The deletions of [add] undo exactly what the run had created: when the
    status "Failed" was persisted they name, in the order of creation, the
    objects whose creation the server had accepted; otherwise there is no
    deletion at all. *)
Theorem add_compensation_targets_what_was_created (m : MySQL.t) (σ : Σ) :
  if persist_succeeds "Failed" (add_calls m σ)
  then target <$> deletes (add_calls m σ) =
       target <$> successful Create (add_calls m σ)
  else deletes (add_calls m σ) = [].
Proof. destruct (add_runs m σ); cbn; names; reflexivity. Qed.

(** The first request of [add] is the status update to "Received In ADD".
    A status update to "Failed" is sent exactly when a creation failed.
    The status left on the server is none of the two when the first update
    failed, "Failed" when that update was accepted, and "Received In ADD"
    otherwise: also after a failed creation whose "Failed" was refused. *)
Theorem add_status_reflects_outcome (m : MySQL.t) (σ : Σ) :
  head (requests (add_calls m σ)) =
    Some (MySQLs_UpdateStatus (MySQL.Namespace m) (received m))
  ∧ existsb (persists "Failed") (requests (add_calls m σ)) =
      create_fails (add_calls m σ)
  ∧ persisted_status (add_calls m σ) =
      if persist_fails "Received In ADD" (add_calls m σ) then None
      else if persist_succeeds "Failed" (add_calls m σ) then Some "Failed"
      else Some "Received In ADD".
Proof. destruct (add_runs m σ); cbn; repeat split. Qed.

(** The objects [add] submits in its status updates are the notified
    custom resource with another status message: metadata and spec are
    those of the notification. *)
Theorem add_status_updates_keep_metadata_and_spec (m : MySQL.t) (σ : Σ) :
  Forall (λ obj, MySQL.ObjectMeta obj = MySQL.ObjectMeta m
                 ∧ MySQL.Spec obj = MySQL.Spec m)
    (updated_objects (add_calls m σ)).
Proof. destruct (add_runs m σ); cbn; repeat constructor. Qed.

(** When the creation of the Secret fails, [add] tries to persist "Failed"
    and stops: no other creation and no deletion is sent, whether that
    status update is accepted or not. *)
Theorem add_secret_failure_sends_nothing_more (m : MySQL.t) (σ : Σ) :
  fails Create KSecret (add_calls m σ) = true →
  requests (add_calls m σ) =
    [ MySQLs_UpdateStatus (MySQL.Namespace m) (received m);
      Secrets_Create (MySQL.Namespace m) secret;
      MySQLs_UpdateStatus (MySQL.Namespace m) (failed m) ]
  ∧ deletes (add_calls m σ) = [].
Proof. destruct (add_runs m σ); cbn; try discriminate; done. Qed.

(** The only errors [add] hands to klog are those of status updates.  The
    error of a failed creation never reaches the log: the line "Failed to
    create secret" or "Failed to create service" is written with the nil
    error of the status update that preceded it, and a failed StatefulSet
    creation leaves no error line at all once "Failed" is persisted. *)
Theorem add_logs_only_status_update_errors (m : MySQL.t) (σ : Σ) :
  logged_errors (add_logs m σ) = errors_of UpdateStatus (add_calls m σ)
  ∧ (if fails Create KStatefulSet (add_calls m σ)
        && persist_succeeds "Failed" (add_calls m σ)
     then error_messages (add_logs m σ) = []
     else True).
Proof. destruct (add_runs m σ); cbn; repeat split. Qed.
End Handlers.

(** The deletions that [delete] sends after that of the custom resource
    name exactly the objects that a fully successful [add] for the same
    resource created, in the same order. *)
Theorem delete_targets_what_add_created
    {Σ1 Σ2 : Type} `{!Clientset Σ1} `{!Clientset Σ2}
    (m : MySQL.t) (σ1 : Σ1) (σ2 : Σ2) :
  no_failure (add_calls m σ1) = true →
  target <$> drop 1 (requests (observe (delete (ObjMySQL m)) σ2)) =
  target <$> creates (add_calls m σ1).
Proof.
  destruct (add_runs m σ1); cbn; try discriminate. intros _.
  unfold observe, run, delete, init, call, klog, mbind, M_bind, mret, M_ret.
  cbn.
  repeat match goal with
         | |- context [serve ?c ?σ] => destruct (serve c σ) as [? ?]; cbn
         end.
  reflexivity.
Qed.


(** The StatefulSet built for a custom resource is determined by the
    resource's name, namespace and version, and determines them: status
    and labels play no part, and two resources that differ in one of the
    three get different StatefulSets. *)
Theorem sts_depends_exactly_on_name_namespace_version (ret ret' : MySQL.t) :
  sts ret = sts ret'
  ↔ MySQL.Name ret = MySQL.Name ret'
    ∧ MySQL.Namespace ret = MySQL.Namespace ret'
    ∧ MySQLSpec.Version (MySQL.Spec ret) = MySQLSpec.Version (MySQL.Spec ret').
Proof.
  split.
  - intros H. repeat split.
    + apply (f_equal (λ s, ObjectMeta.Name (StatefulSet.ObjectMeta s))) in H.
      by apply string_app_inj_r in H.
    + by apply (f_equal (λ s, ObjectMeta.Namespace (StatefulSet.ObjectMeta s)))
        in H.
    + apply (f_equal (λ s, Container.Image <$>
               PodSpec.Containers (PodTemplateSpec.Spec
                 (StatefulSetSpec.Template (StatefulSet.Spec s))))) in H.
      injection H as H. exact H.
  - intros (Hn & Hns & Hv). unfold sts, podTemplate. by rewrite Hn, Hns, Hv.
Qed.

(** The three objects [add] builds fit together, whatever the custom
    resource: the StatefulSet is governed by the Service that is created,
    its selector and the Service's selector are the labels of its pods,
    the container listens on the Service's port, its one volume mount
    names the volume claim template, and its one environment variable
    reads a key that the Secret holds, from the Secret by its name. *)
Theorem add_objects_refer_to_each_other (ret : MySQL.t) :
  let spec := StatefulSet.Spec (sts ret) in
  let pod := StatefulSetSpec.Template spec in
  StatefulSetSpec.ServiceName spec = ObjectMeta.Name (Service.ObjectMeta service)
  ∧ StatefulSetSpec.Selector spec =
      Some {| LabelSelector.MatchLabels :=
                ObjectMeta.Labels (PodTemplateSpec.ObjectMeta pod) |}
  ∧ ServiceSpec.Selector (Service.Spec service) =
      ObjectMeta.Labels (PodTemplateSpec.ObjectMeta pod)
  ∧ Forall (λ c,
      ContainerPort.ContainerPort <$> Container.Ports c =
        ServicePort.Port <$> ServiceSpec.Ports (Service.Spec service)
      ∧ VolumeMount.Name <$> Container.VolumeMounts c =
          (λ pvc, ObjectMeta.Name (PersistentVolumeClaim.ObjectMeta pvc)) <$>
            StatefulSetSpec.VolumeClaimTemplates spec
      ∧ Forall (λ ev, ∃ sel,
          EnvVar.ValueFrom ev =
            Some {| EnvVarSource.SecretKeyRef := Some sel |}
          ∧ LocalObjectReference.Name
              (SecretKeySelector.LocalObjectReference sel) =
            ObjectMeta.Name (Secret.ObjectMeta secret)
          ∧ Secret.StringData secret !! SecretKeySelector.Key sel =
            Some passwd) (Container.Env c))
    (PodSpec.Containers (PodTemplateSpec.Spec pod)).
Proof.
  cbv zeta. repeat split.
  constructor; [|constructor]. repeat split.
  constructor; [|constructor].
  eexists {| SecretKeySelector.Key := envName |}. repeat split.
Qed.

(** ** The handlers against the storing server *)

#[local] Set Warnings "-clear-no-such-hyp".

Section OnCluster.
#[local] Opaque secret service sts.

Ltac names := rewrite ?secret_Name, ?service_Name, ?sts_Name.
Ltac on_cluster :=
  unfold add_calls, add_logs, observe, run, add, delete, init, call, klog,
    mbind, M_bind, mret, M_ret;
  unfold serve, cluster_server, cluster_create, cluster_delete,
    cluster_update_status, target, resource_of, dependents_of in *;
  cbn; names.
Ltac present := rewrite decide_True by set_solver; cbn; names.
Ltac absent := rewrite decide_False by set_solver; cbn; names.

Lemma add_on_fresh_namespace (m : MySQL.t) (c : Cluster) :
  resource_of m ∈ objects c → dependents_of m ## objects c →
  run (add (ObjMySQL m)) c =
    {| cluster :=
         {| objects :=
              {[ (KStatefulSet, MySQL.Namespace m,
                  MySQL.Name m +:+ "-deployment") ]} ∪
              ({[ (KService, MySQL.Namespace m, serviceName) ]} ∪
               ({[ (KSecret, MySQL.Namespace m, secretName) ]} ∪ objects c));
            status := <[ (MySQL.Namespace m, MySQL.Name m) :=
                         "Received In ADD" ]> (status c) |};
       calls :=
         [ (MySQLs_UpdateStatus (MySQL.Namespace m) (received m), None);
           (Secrets_Create (MySQL.Namespace m) secret, None);
           (Services_Create (MySQL.Namespace m) service, None);
           (StatefulSets_Create (MySQL.Namespace m) (sts (received m)), None) ];
       logs := log_received m |}.
Proof.
  intros Hm Hd. on_cluster. present. absent. absent. absent. reflexivity.
Qed.

Lemma add_on_taken_secret (m : MySQL.t) (c : Cluster) :
  resource_of m ∈ objects c →
  (KSecret, MySQL.Namespace m, secretName) ∈ objects c →
  run (add (ObjMySQL m)) c =
    {| cluster :=
         {| objects := objects c;
            status := <[ (MySQL.Namespace m, MySQL.Name m) := "Failed" ]>
                        (<[ (MySQL.Namespace m, MySQL.Name m) :=
                            "Received In ADD" ]> (status c)) |};
       calls :=
         [ (MySQLs_UpdateStatus (MySQL.Namespace m) (received m), None);
           (Secrets_Create (MySQL.Namespace m) secret, Some "already exists");
           (MySQLs_UpdateStatus (MySQL.Namespace m) (failed m), None) ];
       logs := log_received m ++
         [ ErrorS None "Failed to create secret"
             ["namespace"; MySQL.Namespace m; "name"; secretName] ] |}.
Proof.
  intros Hm Hs. on_cluster. present. present. present. reflexivity.
Qed.

Lemma objects_after_delete (m : MySQL.t) (c : Cluster) :
  objects (cluster (run (delete (ObjMySQL m)) c)) =
    objects c ∖ ({[ resource_of m ]} ∪ dependents_of m).
Proof. on_cluster. repeat (case_decide; cbn); set_solver. Qed.

(** On a server that stores the custom resource and none of its three
    dependents, [add] goes through without a failure: afterwards the
    server stores the Secret, the Service and the StatefulSet besides what
    it stored before, and the resource's status is "Received In ADD". *)
Theorem add_provisions_a_fresh_namespace (m : MySQL.t) (c : Cluster) :
  resource_of m ∈ objects c → dependents_of m ## objects c →
  no_failure (add_calls m c) = true
  ∧ objects (cluster (run (add (ObjMySQL m)) c)) = dependents_of m ∪ objects c
  ∧ status (cluster (run (add (ObjMySQL m)) c))
      !! (MySQL.Namespace m, MySQL.Name m) = Some "Received In ADD".
Proof.
  intros Hm Hd. unfold add_calls, observe.
  rewrite (add_on_fresh_namespace m c Hm Hd). cbn. repeat split.
  - unfold dependents_of. set_solver.
  - apply lookup_insert_eq.
Qed.

(** After [delete], whatever the server stored, it stores neither the
    custom resource nor a Secret "mysql-password", a Service "mysql" or
    the resource's StatefulSet in that namespace, and every other object
    is still there; four requests were sent. *)
Theorem delete_leaves_none_of_the_four (m : MySQL.t) (c : Cluster) :
  objects (cluster (run (delete (ObjMySQL m)) c)) =
    objects c ∖ ({[ resource_of m ]} ∪ dependents_of m)
  ∧ length (observe (delete (ObjMySQL m)) c) = 4%nat.
Proof.
  split; [apply objects_after_delete|].
  on_cluster. repeat (case_decide; cbn); reflexivity.
Qed.



(** [delete] for one custom resource removes what another one of the same
    namespace runs on: after [add] has provisioned [m1], a [delete] for a
    differently named [m2] of that namespace removes the Secret and the
    Service, while [m1] and its StatefulSet stay. *)
Theorem delete_removes_a_sibling_s_secret_and_service
    (m1 m2 : MySQL.t) (c : Cluster) :
  resource_of m1 ∈ objects c → dependents_of m1 ## objects c →
  MySQL.Namespace m2 = MySQL.Namespace m1 → MySQL.Name m2 ≠ MySQL.Name m1 →
  let after :=
    objects (cluster (run (delete (ObjMySQL m2))
                        (cluster (run (add (ObjMySQL m1)) c)))) in
  ((KSecret, MySQL.Namespace m1, secretName) ∉ after)
  ∧ ((KService, MySQL.Namespace m1, serviceName) ∉ after)
  ∧ (KStatefulSet, MySQL.Namespace m1, MySQL.Name m1 +:+ "-deployment")
      ∈ after
  ∧ resource_of m1 ∈ after.
Proof.
  intros Hm1 Hd Hns Hname after. subst after.
  rewrite objects_after_delete, (add_on_fresh_namespace m1 c Hm1 Hd). cbn.
  assert (MySQL.Name m2 +:+ "-deployment" ≠ MySQL.Name m1 +:+ "-deployment")
    by (intros E; by apply string_app_inj_r in E).
  unfold resource_of, dependents_of in *. rewrite Hns. set_solver.
Qed.
End OnCluster.

(** ** Concrete runs for the properties above *)

Lemma add_secret_failure_sends_nothing_more_witness :
  fails Create KSecret (add_calls db1 secret_rejected) = true
  ∧ requests (add_calls db1 secret_rejected) =
      [ MySQLs_UpdateStatus (MySQL.Namespace db1) (received db1);
        Secrets_Create (MySQL.Namespace db1) secret;
        MySQLs_UpdateStatus (MySQL.Namespace db1) (failed db1) ]
  ∧ deletes (add_calls db1 secret_rejected) = [].
Proof.
  split; [vm_compute; reflexivity|].
  apply (add_secret_failure_sends_nothing_more db1 secret_rejected).
  vm_compute; reflexivity.
Defined.

Lemma delete_targets_what_add_created_witness :
  no_failure (add_calls db1 all_succeed) = true
  ∧ target <$> drop 1 (requests (observe (delete (ObjMySQL db1))
                                   status_rejected)) =
    target <$> creates (add_calls db1 all_succeed).
Proof.
  split; [vm_compute; reflexivity|].
  apply (delete_targets_what_add_created db1 all_succeed status_rejected).
  vm_compute; reflexivity.
Defined.


Lemma two_resources_stores_db1 : resource_of db1 ∈ objects two_resources.
Proof. unfold two_resources; cbn. set_solver. Defined.

Lemma two_resources_stores_db3 : resource_of db3 ∈ objects two_resources.
Proof. unfold two_resources; cbn. set_solver. Defined.

Lemma two_resources_is_fresh_for_db1 :
  dependents_of db1 ## objects two_resources.
Proof. unfold two_resources, dependents_of, resource_of; cbn. set_solver. Defined.

Lemma add_provisions_a_fresh_namespace_witness :
  (resource_of db1 ∈ objects two_resources
   ∧ dependents_of db1 ## objects two_resources)
  ∧ no_failure (add_calls db1 two_resources) = true
  ∧ objects (cluster (run (add (ObjMySQL db1)) two_resources)) =
    dependents_of db1 ∪ objects two_resources
  ∧ status (cluster (run (add (ObjMySQL db1)) two_resources))
      !! (MySQL.Namespace db1, MySQL.Name db1) = Some "Received In ADD".
Proof.
  split; [split; [apply two_resources_stores_db1
                 |apply two_resources_is_fresh_for_db1]|].
  exact (add_provisions_a_fresh_namespace db1 two_resources
           two_resources_stores_db1 two_resources_is_fresh_for_db1).
Defined.



Lemma db3_is_not_named_db1 : MySQL.Name db3 ≠ MySQL.Name db1.
Proof. discriminate. Defined.

Lemma delete_removes_a_sibling_s_secret_and_service_witness :
  (resource_of db1 ∈ objects two_resources
   ∧ dependents_of db1 ## objects two_resources
   ∧ MySQL.Namespace db3 = MySQL.Namespace db1
   ∧ MySQL.Name db3 ≠ MySQL.Name db1)
  ∧ let after :=
      objects (cluster (run (delete (ObjMySQL db3))
                          (cluster (run (add (ObjMySQL db1)) two_resources))))
    in
    ((KSecret, MySQL.Namespace db1, secretName) ∉ after)
    ∧ ((KService, MySQL.Namespace db1, serviceName) ∉ after)
    ∧ (KStatefulSet, MySQL.Namespace db1, MySQL.Name db1 +:+ "-deployment")
        ∈ after
    ∧ resource_of db1 ∈ after.
Proof.
  split.
  { exact (conj two_resources_stores_db1
             (conj two_resources_is_fresh_for_db1
                (conj eq_refl db3_is_not_named_db1))). }
  exact (delete_removes_a_sibling_s_secret_and_service db1 db3 two_resources
           two_resources_stores_db1 two_resources_is_fresh_for_db1
           eq_refl db3_is_not_named_db1).
Defined.
